(** * JanSeva-AI: the launcher [run.py]

    The launcher is the module

<<
    import os
    from app import create_app

    app = create_app()

    if __name__ == '__main__':
        port = int(os.environ.get('PORT', 5000))
        debug_mode = os.environ.get('FLASK_ENV', 'production') == 'development'
        app.run(host='0.0.0.0', port=port, debug=debug_mode)
>>

    It is embedded as a computation in a small monad that reads the process
    environment, records what the module does as a trace of events and stops
    at the first exception raised.  The application factory and the serving
    component live outside the launcher and are fields of the [world] in
    which the module runs, as is the digit limit that the interpreter
    applies in [int]. *)

From Stdlib Require Import ZArith NArith String Ascii List Lia.
From Stdlib Require Import DecimalString DecimalPos.
From stdpp Require Import base option gmap strings.
Import ListNotations.

Local Open Scope string_scope.
Local Open Scope Z_scope.

(** ** Python values and exceptions *)

(** The two kinds of object [os.environ.get] can hand to [int] and to [==]
    here: a [str] (the value of a variable, or the default ['production'])
    and an [int] (the default [5000]).  A [str] is the sequence of its code
    points, each taken below 256. *)
Inductive value : Type :=
| VStr (s : string)
| VInt (n : Z).

(** [ValueError s] is the [ValueError] with which [int] rejects the str [s];
    [OtherError cls] is any exception the collaborators raise. *)
Inductive exception : Type :=
| ValueError (literal : string)
| OtherError (cls : string).

(** [a == b] on these values. *)
Definition py_eq (a b : value) : bool :=
  match a, b with
  | VStr s, VStr t => String.eqb s t
  | VInt m, VInt n => Z.eqb m n
  | _, _ => false
  end.

(** ** The builtin [int] (CPython, base 10) *)

Module PyInt.

Definition code (c : ascii) : N := N_of_ascii c.

(** [Py_ISSPACE]: the ASCII white space of [pyctype]. *)
Definition Py_ISSPACE (c : ascii) : bool :=
  ((9 <=? code c) && (code c <=? 13) || (code c =? 32))%N.

(** [Py_UNICODE_ISSPACE] on the code points below 256. *)
Definition Py_UNICODE_ISSPACE (c : ascii) : bool :=
  ((9 <=? code c) && (code c <=? 13) || (28 <=? code c) && (code c <=? 32)
   || (code c =? 133) || (code c =? 160))%N.

(** [Py_UNICODE_TODECIMAL] on the code points below 256: only the ASCII
    digits are decimal digits there. *)
Definition Py_UNICODE_TODECIMAL (c : ascii) : option Z :=
  if ((48 <=? code c) && (code c <=? 57))%N then Some (Z.of_N (code c) - 48)
  else None.

Fixpoint PyUnicode_IS_ASCII (s : string) : bool :=
  match s with
  | EmptyString => true
  | String c r => (code c <? 128)%N && PyUnicode_IS_ASCII r
  end.

(** The loop of [_PyUnicode_TransformDecimalAndSpaceToASCII]: white space
    becomes a blank, a decimal digit its ASCII digit, and the first other
    character at or above 127 becomes ["?"] and ends the result. *)
Fixpoint transform_loop (s : string) : string :=
  match s with
  | EmptyString => EmptyString
  | String c r =>
      if (code c <? 127)%N then String c (transform_loop r)
      else if Py_UNICODE_ISSPACE c then String " " (transform_loop r)
      else match Py_UNICODE_TODECIMAL c with
           | Some d => String (ascii_of_N (Z.to_N (48 + d))) (transform_loop r)
           | None => String "?" EmptyString
           end
  end.

Definition TransformDecimalAndSpaceToASCII (s : string) : string :=
  if PyUnicode_IS_ASCII s then s else transform_loop s.

(** Skipping white space: the pointer advances while it is at a
    [Py_ISSPACE] character. *)
Fixpoint skip_space (s : string) : string :=
  match s with
  | String c r => if Py_ISSPACE c then skip_space r else s
  | EmptyString => s
  end.

(** The digit limit of the conversion, [sys.get_int_max_str_digits ()], is
    part of the interpreter's state: [DEFAULT_MAX_STR_DIGITS] unless it was
    set otherwise, and no limit when it is 0.  It is looked at only for texts
    of more than [MAX_STR_DIGITS_THRESHOLD] digits. *)
Definition DEFAULT_MAX_STR_DIGITS : N := 4300.
Definition MAX_STR_DIGITS_THRESHOLD : N := 640.

Definition exceeds_max_str_digits (max_str_digits digits : N) : bool :=
  ((MAX_STR_DIGITS_THRESHOLD <? digits)
   && ((0 <? max_str_digits) && (max_str_digits <? digits)))%N.

(** The scan of digits and underscores in [long_from_string_base]: [prev]
    tells whether the previous character was an underscore, [digits] counts
    the digits read and [acc] is their value.  [None] is the syntax error of
    a doubled or a trailing underscore; otherwise the count, the value and
    the text from the first character that is neither. *)
Fixpoint scan_digits (s : string) (prev : bool) (digits : N) (acc : Z)
  : option (N * Z * string) :=
  match s with
  | EmptyString => if prev then None else Some (digits, acc, s)
  | String c r =>
      if Ascii.eqb c "_" then
        if prev then None else scan_digits r true digits acc
      else
        match Py_UNICODE_TODECIMAL c with
        | Some d => scan_digits r false (N.succ digits) (10 * acc + d)
        | None => if prev then None else Some (digits, acc, s)
        end
  end.

(** [PyLong_FromString] in base 10 on ASCII text, under the digit limit
    [max_str_digits], [None] for each of its errors: optional white space, an
    optional sign, digits with single underscores between them, optional
    white space, and nothing else; and no more digits than the limit
    allows. *)
Definition PyLong_FromString (max_str_digits : N) (s : string) : option Z :=
  let s1 := skip_space s in
  let '(negative, s2) :=
    match s1 with
    | String c r =>
        if Ascii.eqb c "+" then (false, r)
        else if Ascii.eqb c "-" then (true, r)
        else (false, s1)
    | EmptyString => (false, s1)
    end in
  match s2 with
  | String c _ => if Ascii.eqb c "_" then None else
      match scan_digits s2 false 0%N 0 with
      | None => None
      | Some (digits, v, rest) =>
          if (digits =? 0)%N then None
          else if exceeds_max_str_digits max_str_digits digits then None
          else match skip_space rest with
               | EmptyString => Some (if negative then - v else v)
               | String _ _ => None
               end
      end
  | EmptyString => None
  end.

(** [int (s)] for a str: [PyLong_FromUnicodeObject (s, 10)]. *)
Definition int_of_str (max_str_digits : N) (s : string) : option Z :=
  PyLong_FromString max_str_digits (TransformDecimalAndSpaceToASCII s).

(** [int (v)]: an int is returned as it is, a str is converted or rejected
    with [ValueError]. *)
Definition int (max_str_digits : N) (v : value) : exception + Z :=
  match v with
  | VInt n => inr n
  | VStr s =>
      match int_of_str max_str_digits s with
      | Some n => inr n
      | None => inl (ValueError s)
      end
  end.

End PyInt.

(** ** The digit limit at interpreter start-up *)

Module PyConfig.

Definition INT_MIN : Z := -2147483648.
Definition INT_MAX : Z := 2147483647.

(** The digits [strtol] reads in base 10, with what follows them. *)
Fixpoint strtol_digits (s : string) (acc : Z) : Z * string :=
  match s with
  | String c r =>
      match PyInt.Py_UNICODE_TODECIMAL c with
      | Some d => strtol_digits r (10 * acc + d)
      | None => (acc, s)
      end
  | EmptyString => (acc, s)
  end.

(** [_Py_str_to_int]: [strtol (str, &endptr, 10)] (white space, an optional
    sign, digits), which fails when something follows the number, when there
    is no digit in a text that is not empty, or when the value is no C
    [int]. *)
Definition Py_str_to_int (s : string) : option Z :=
  let s1 := PyInt.skip_space s in
  let '(negative, s2) :=
    match s1 with
    | String c r =>
        if Ascii.eqb c "+" then (false, r)
        else if Ascii.eqb c "-" then (true, r)
        else (false, s1)
    | EmptyString => (false, s1)
    end in
  match s2 with
  | String c _ =>
      match PyInt.Py_UNICODE_TODECIMAL c with
      | Some _ =>
          let '(v, rest) := strtol_digits s2 0 in
          let value := if negative then - v else v in
          match rest with
          | EmptyString =>
              if (INT_MIN <=? value) && (value <=? INT_MAX) then Some value
              else None
          | String _ _ => None
          end
      | None => None
      end
  | EmptyString =>
      match s with
      | EmptyString => Some 0
      | String _ _ => None
      end
  end.

(** [config_init_int_max_str_digits] for an interpreter started without
    [-E], [-I] and [-X int_max_str_digits]: the limit is the value of
    [PYTHONINTMAXSTRDIGITS] when that is set and not empty, and the default
    otherwise; a value that is no number, or neither 0 nor at least the
    threshold, stops the interpreter before it runs anything ([None]). *)
Definition config_init_int_max_str_digits (env : gmap string string)
  : option N :=
  match env !! "PYTHONINTMAXSTRDIGITS" with
  | None | Some EmptyString => Some PyInt.DEFAULT_MAX_STR_DIGITS
  | Some s =>
      match Py_str_to_int s with
      | Some v =>
          if (v =? 0) || (Z.of_N PyInt.MAX_STR_DIGITS_THRESHOLD <=? v)
          then Some (Z.to_N v)
          else None
      | None => None
      end
  end.

End PyConfig.

(** ** The world of a run and the launcher monad *)

(** The application object the factory returns; the launcher only passes it
    on, so a handle stands for it. *)
Inductive application : Type :=
| Application (handle : N).

(** What the module does, in the order it does it. *)
Inductive event : Type :=
| EvCreateApp
| EvEnvironGet (key : string)
| EvAppRun (self : application) (host : string) (port : Z) (debug : bool).

(** The surroundings of a run: the mapping [os.environ] as the main block
    reads it, the digit limit of [int] in force in the interpreter, what the
    call [create_app ()] gives (an application, or the exception it raises),
    and how a call of [app.run] ends once the server stops ([None]: it
    returns; [Some e]: it raises [e]). *)
Record world : Type := World {
  environ : gmap string string;
  int_max_str_digits : N;
  create_app : exception + application;
  serve : application -> string -> Z -> bool -> option exception
}.

(** A statement: it reads the world, extends the trace and either yields a
    result or raises. *)
Definition M (A : Type) : Type :=
  world -> list event -> list event * (exception + A).

#[global] Instance M_ret : MRet M :=
  fun A (a : A) _ tr => (tr, inr a).

#[global] Instance M_bind : MBind M :=
  fun A B (k : A -> M B) (m : M A) w tr =>
    match m w tr with
    | (tr', inr a) => k a w tr'
    | (tr', inl e) => (tr', inl e)
    end.

Definition emit (ev : event) : M unit :=
  fun _ tr => ((tr ++ [ev])%list, inr tt).

Definition ask : M world :=
  fun w tr => (tr, inr w).

Definition lift {A : Type} (r : exception + A) : M A :=
  fun _ tr => (tr, r).

(** [d.get (key, default)] on a mapping of strs. *)
Definition dict_get (d : gmap string string) (key : string) (default : value)
  : value :=
  match d !! key with
  | Some s => VStr s
  | None => default
  end.

(** [os.environ.get (key, default)]. *)
Definition os_environ_get (key : string) (default : value) : M value :=
  _ ← emit (EvEnvironGet key);
  w ← ask;
  mret (dict_get (environ w) key default).

(** [create_app ()]. *)
Definition call_create_app : M application :=
  _ ← emit EvCreateApp;
  w ← ask;
  lift (create_app w).

(** [int (v)]. *)
Definition int (v : value) : M Z :=
  w ← ask;
  lift (PyInt.int (int_max_str_digits w) v).

(** [app.run (host=host, port=port, debug=debug)]. *)
Definition app_run (app : application) (host : string) (port : Z)
  (debug : bool) : M unit :=
  _ ← emit (EvAppRun app host port debug);
  w ← ask;
  match serve w app host port debug with
  | None => mret tt
  | Some e => lift (inl e)
  end.

(** ** The module *)

(** The body of [run.py], executed with [__name__] bound to [name]. *)
Definition module_body (name : string) : M unit :=
  app ← call_create_app;
  if String.eqb name "__main__" then
    v ← os_environ_get "PORT" (VInt 5000);
    port ← int v;
    f ← os_environ_get "FLASK_ENV" (VStr "production");
    let debug_mode := py_eq f (VStr "development") in
    app_run app "0.0.0.0" port debug_mode
  else
    mret tt.

(** Running the module from the empty trace: [python run.py] is
    [run_module "__main__"], [import run] is [run_module "run"]. *)
Definition run_module (name : string) (w : world)
  : list event * (exception + unit) :=
  module_body name w [].

Definition trace_of (name : string) (w : world) : list event :=
  fst (run_module name w).

Definition outcome_of (name : string) (w : world) : exception + unit :=
  snd (run_module name w).

(** ** Observations on a trace *)

(** A call [self.run (host=host, port=port, debug=debug)]. *)
Record run_call : Type := RunCall {
  call_self : application;
  call_host : string;
  call_port : Z;
  call_debug : bool
}.

(** The calls of [app.run] in a trace, in order. *)
Fixpoint serve_calls (tr : list event) : list run_call :=
  match tr with
  | [] => []
  | EvAppRun a h p d :: r => RunCall a h p d :: serve_calls r
  | _ :: r => serve_calls r
  end.

(** The [(host, port, debug)] of a call. *)
Definition call_config (c : run_call) : string * Z * bool :=
  (call_host c, call_port c, call_debug c).

(** The variables read through [os.environ.get] in a trace. *)
Fixpoint environ_reads (tr : list event) : list string :=
  match tr with
  | [] => []
  | EvEnvironGet k :: r => k :: environ_reads r
  | _ :: r => environ_reads r
  end.

(** The value [os.environ.get ('PORT', 5000)] has in a world. *)
Definition port_setting (w : world) : value :=
  dict_get (environ w) "PORT" (VInt 5000).

(** The value of [debug_mode] in a world. *)
Definition debug_setting (w : world) : bool :=
  py_eq (dict_get (environ w) "FLASK_ENV" (VStr "production"))
        (VStr "development").

(** A run failed when an exception left the module. *)
Definition startup_failed (o : exception + unit) : Prop :=
  exists e, o = inl e.

(** The failure is the conversion's own [ValueError] leaving the module
    uncaught. *)
Definition unhandled_conversion_error (o : exception + unit) : Prop :=
  exists s, o = inl (ValueError s).

(** What a failure needs in order to count as a configuration error that the
    launcher reports: startup failed, and not by the conversion's own
    [ValueError] leaving the module uncaught. *)
Definition reported_configuration_error (o : exception + unit) : Prop :=
  startup_failed o /\ ~ unhandled_conversion_error o.

(** Startup fails with a reported configuration error and [app.run] is never
    called. *)
Definition fails_with_reported_configuration_error (w : world) : Prop :=
  reported_configuration_error (outcome_of "__main__" w)
  /\ serve_calls (trace_of "__main__" w) = [].

(** The first step of a trace is a read of the environment. *)
Definition environment_read_first (tr : list event) : Prop :=
  exists k r, tr = EvEnvironGet k :: r.

(** ** Sample worlds *)

Definition the_app : application := Application 1.

Definition serve_forever : application -> string -> Z -> bool -> option exception :=
  fun _ _ _ _ => None.

Definition world_of (env : gmap string string) : world :=
  World env PyInt.DEFAULT_MAX_STR_DIGITS (inr the_app) serve_forever.

Definition env_8080_development : gmap string string :=
  {[ "PORT" := "8080"; "FLASK_ENV" := "development" ]}.

Definition env_8080_development_and_more : gmap string string :=
  {[ "PORT" := "8080"; "FLASK_ENV" := "development"; "HOME" := "/srv";
     "FLASK_DEBUG" := "0"; "HOST" := "127.0.0.1" ]}.

Definition env_PORT_abc : gmap string string := {[ "PORT" := "abc" ]}.
Definition env_PORT_minus_1 : gmap string string := {[ "PORT" := "-1" ]}.
Definition env_PORT_70000 : gmap string string := {[ "PORT" := "70000" ]}.


Definition other_app : application := Application 2.

(** The world of [python run.py] started in the process environment [env],
    when the interpreter starts: the digit limit is the one start-up takes
    from [env]. *)
Definition started_world (env : gmap string string)
  (factory : exception + application)
  (sv : application -> string -> Z -> bool -> option exception)
  : option world :=
  match PyConfig.config_init_int_max_str_digits env with
  | Some lim => Some (World env lim factory sv)
  | None => None
  end.

(** A numeral of 4301 digits, one more than the default limit, as the value
    of [PORT], without and with [PYTHONINTMAXSTRDIGITS=0]. *)
Definition ones_4301 : string := Nat.iter 4301 (String "1") "".

Definition env_PORT_4301_digits : gmap string string :=
  {[ "PORT" := ones_4301 ]}.

Definition env_PORT_4301_digits_no_limit : gmap string string :=
  {[ "PORT" := ones_4301; "PYTHONINTMAXSTRDIGITS" := "0" ]}.

Definition world_4301_digits : world :=
  World env_PORT_4301_digits PyInt.DEFAULT_MAX_STR_DIGITS
    (inr the_app) serve_forever.

Definition world_4301_digits_no_limit : world :=
  World env_PORT_4301_digits_no_limit 0 (inr the_app) serve_forever.

(** A world whose factory raises. *)
Definition world_factory_raises : world :=
  World env_8080_development PyInt.DEFAULT_MAX_STR_DIGITS
    (inl (OtherError "RuntimeError")) serve_forever.

(** ** Vocabulary for the further properties *)

(** The number of calls of the factory in a trace. *)
Fixpoint factory_calls (tr : list event) : nat :=
  match tr with
  | [] => 0%nat
  | EvCreateApp :: r => S (factory_calls r)
  | _ :: r => factory_calls r
  end.

(** Every character of a str satisfies [P]. *)
Fixpoint string_forallb (P : ascii -> bool) (s : string) : bool :=
  match s with
  | EmptyString => true
  | String c r => P c && string_forallb P r
  end.

(** A str of ASCII white space only (the empty str included). *)
Definition blank (s : string) : bool :=
  string_forallb PyInt.Py_ISSPACE s.

(** The characters ASCII text that [PyLong_FromString] converts is made of:
    ASCII white space, the ten digits, the two signs and the underscore. *)
Definition ascii_numeral_char (c : ascii) : bool :=
  PyInt.Py_ISSPACE c
  || match PyInt.Py_UNICODE_TODECIMAL c with Some _ => true | None => false end
  || Ascii.eqb c "_" || Ascii.eqb c "+" || Ascii.eqb c "-".

(** The characters a str that [int] converts is made of: ASCII white space,
    the next-line and no-break-space characters (133 and 160), the ten
    digits, the two signs and the underscore. *)
Definition numeral_char (c : ascii) : bool :=
  PyInt.Py_ISSPACE c
  || (PyInt.code c =? 133)%N || (PyInt.code c =? 160)%N
  || match PyInt.Py_UNICODE_TODECIMAL c with Some _ => true | None => false end
  || Ascii.eqb c "_" || Ascii.eqb c "+" || Ascii.eqb c "-".

(** The decimal numeral of an integer, as [str (n)] writes it: the digits
    without leading zeros, after ["-"] for a negative number. *)
Definition decimal_numeral (n : Z) : string :=
  NilEmpty.string_of_int (Z.to_int n).

(** ** How a run unfolds *)

Ltac run_step :=
  unfold trace_of, outcome_of, run_module, module_body, call_create_app,
    os_environ_get, app_run, int, emit, ask, lift, port_setting,
    debug_setting, mbind, mret, M_bind, M_ret in *;
  cbn [fst snd app] in *.

Ltac by_cases_on_char c :=
  destruct c as [[|] [|] [|] [|] [|] [|] [|] [|]];
  try reflexivity; try discriminate.

(** The factory raises: nothing else happens. *)
Lemma run_factory_raises (name : string) (w : world) (e : exception) :
  create_app w = inl e ->
  run_module name w = ([EvCreateApp], inl e).
Proof.
  intros Hf. run_step. now rewrite Hf.
Qed.

(** Imported: the factory call is the whole of the run. *)
Lemma run_imported (name : string) (w : world) (a : application) :
  name <> "__main__" ->
  create_app w = inr a ->
  run_module name w = ([EvCreateApp], inr tt).
Proof.
  intros Hn Hf. run_step. rewrite Hf.
  destruct (String.eqb_spec name "__main__") as [Heq | _]; [contradiction | reflexivity].
Qed.

(** Main program, [int] rejects the port setting: the run stops after the
    read of [PORT]. *)
Lemma run_main_rejected (w : world) (a : application) (e : exception) :
  create_app w = inr a ->
  PyInt.int (int_max_str_digits w) (port_setting w) = inl e ->
  run_module "__main__" w = ([EvCreateApp; EvEnvironGet "PORT"], inl e).
Proof.
  intros Hf Hp. run_step. rewrite Hf. cbn. now rewrite Hp.
Qed.

(** Main program, the port setting converts: the run reaches [app.run]. *)
Lemma run_main_serves (w : world) (a : application) (n : Z) :
  create_app w = inr a ->
  PyInt.int (int_max_str_digits w) (port_setting w) = inr n ->
  run_module "__main__" w =
    ([EvCreateApp; EvEnvironGet "PORT"; EvEnvironGet "FLASK_ENV";
      EvAppRun a "0.0.0.0" n (debug_setting w)],
     match serve w a "0.0.0.0" n (debug_setting w) with
     | None => inr tt
     | Some e => inl e
     end).
Proof.
  intros Hf Hp. run_step. rewrite Hf. cbn. rewrite Hp. cbn.
  now destruct (serve w a _ n _).
Qed.

(** The conversion on some literals: white space around the number, a sign
    and single underscores between digits are accepted; an empty text, a
    sign alone, a blank after the sign, a radix prefix, a fraction and text
    that is no number are rejected. *)
Example int_of_str_accepts (lim : N) :
  map (PyInt.int_of_str lim) ["8080"; "-1"; "+5"; "70000"; " 42 "; "1_000"; "007"] =
    [Some 8080; Some (-1); Some 5; Some 70000; Some 42; Some 1000; Some 7].
Proof. reflexivity. Qed.

Example int_of_str_rejects (lim : N) :
  map (PyInt.int_of_str lim)
      ["abc"; ""; " "; "-"; "- 1"; "_1"; "1_"; "1__0"; "0x10"; "5.0"; "4 2"] =
    repeat None 11.
Proof. reflexivity. Qed.

(** [int] on the port setting, by cases on the variable. *)
Lemma int_port_setting_set (w : world) (p : string) :
  environ w !! "PORT" = Some p ->
  PyInt.int (int_max_str_digits w) (port_setting w) =
    match PyInt.int_of_str (int_max_str_digits w) p with
    | Some n => inr n
    | None => inl (ValueError p)
    end.
Proof.
  intros Hp. unfold port_setting, dict_get. now rewrite Hp.
Qed.

Lemma int_port_setting_unset (w : world) :
  environ w !! "PORT" = None ->
  PyInt.int (int_max_str_digits w) (port_setting w) = inr 5000.
Proof.
  intros Hp. unfold port_setting, dict_get. now rewrite Hp.
Qed.

(** [debug_mode] is true exactly for [FLASK_ENV=development]. *)
Lemma debug_setting_true (w : world) :
  debug_setting w = true <-> environ w !! "FLASK_ENV" = Some "development".
Proof.
  unfold debug_setting, dict_get.
  destruct (environ w !! "FLASK_ENV") as [s |]; cbn.
  - rewrite String.eqb_eq. split; congruence.
  - split; discriminate.
Qed.

(** ** A PORT value that [int] rejects *)

(** C1, as stated, fails: with [PORT=abc], which [int] rejects, the run ends
    with the conversion's own [ValueError] leaving the module uncaught; the
    launcher reports no configuration error of its own. *)
Lemma PORT_abc_not_reported :
  environ (world_of env_PORT_abc) !! "PORT" = Some "abc"
  /\ PyInt.int_of_str (int_max_str_digits (world_of env_PORT_abc)) "abc" = None
  /\ outcome_of "__main__" (world_of env_PORT_abc) = inl (ValueError "abc")
  /\ ~ fails_with_reported_configuration_error (world_of env_PORT_abc).
Proof.
  split; [reflexivity |]. split; [reflexivity |]. split; [reflexivity |].
  intros [[_ Hnot] _]. apply Hnot. now exists "abc".
Qed.

(** C1, amended: for every value of [PORT] that [int] rejects, running the
    launcher as the main program fails during startup and never calls
    [app.run]; when the factory returned, the failure is the uncaught
    [ValueError] of the conversion (a failure of the factory is that
    factory's exception). *)
Theorem rejected_PORT_stops_startup (w : world) (p : string) :
  environ w !! "PORT" = Some p ->
  PyInt.int_of_str (int_max_str_digits w) p = None ->
  startup_failed (outcome_of "__main__" w)
  /\ serve_calls (trace_of "__main__" w) = []
  /\ outcome_of "__main__" w =
       match create_app w with
       | inl e => inl e
       | inr _ => inl (ValueError p)
       end.
Proof.
  intros Hp Hrej.
  pose proof (int_port_setting_set w p Hp) as Hint. rewrite Hrej in Hint.
  destruct (create_app w) as [e | a] eqn:Hf.
  - unfold outcome_of, trace_of. rewrite (run_factory_raises _ w e Hf). cbn.
    split; [now exists e | split; reflexivity].
  - unfold outcome_of, trace_of. rewrite (run_main_rejected w a _ Hf Hint). cbn.
    split; [now exists (ValueError p) | split; reflexivity].
Qed.

Lemma rejected_PORT_stops_startup_witness :
  environ (world_of env_PORT_abc) !! "PORT" = Some "abc"
  /\ PyInt.int_of_str (int_max_str_digits (world_of env_PORT_abc)) "abc" = None
  /\ startup_failed (outcome_of "__main__" (world_of env_PORT_abc))
  /\ serve_calls (trace_of "__main__" (world_of env_PORT_abc)) = []
  /\ outcome_of "__main__" (world_of env_PORT_abc) = inl (ValueError "abc").
Proof.
  split; [reflexivity |]. split; [reflexivity |].
  apply (rejected_PORT_stops_startup (world_of env_PORT_abc) "abc");
    reflexivity.
Defined.

(** ** The order of the startup steps *)

(** C2, as stated, fails: in the empty environment the first step of the run
    is the factory call, and both reads of the environment come after it. *)
Lemma factory_call_precedes_environment_read :
  trace_of "__main__" (world_of ∅) =
    [EvCreateApp; EvEnvironGet "PORT"; EvEnvironGet "FLASK_ENV";
     EvAppRun the_app "0.0.0.0" 5000 false]
  /\ ~ environment_read_first (trace_of "__main__" (world_of ∅)).
Proof.
  split; [reflexivity |].
  intros (k & r & Heq). discriminate Heq.
Qed.

(** C2, amended: run as the main program, with a factory that returns and a
    port setting that converts, the launcher first builds the application
    through the factory, then reads [PORT], then reads [FLASK_ENV], then
    calls [app.run]; nothing precedes the factory call. *)
Theorem startup_order (w : world) (a : application) (n : Z) :
  create_app w = inr a ->
  PyInt.int (int_max_str_digits w) (port_setting w) = inr n ->
  trace_of "__main__" w =
    [EvCreateApp; EvEnvironGet "PORT"; EvEnvironGet "FLASK_ENV";
     EvAppRun a "0.0.0.0" n (debug_setting w)].
Proof.
  intros Hf Hp. unfold trace_of. now rewrite (run_main_serves w a n Hf Hp).
Qed.

Lemma startup_order_witness :
  trace_of "__main__" (world_of env_8080_development) =
    [EvCreateApp; EvEnvironGet "PORT"; EvEnvironGet "FLASK_ENV";
     EvAppRun the_app "0.0.0.0" 8080 true].
Proof.
  apply (startup_order (world_of env_8080_development) the_app 8080);
    reflexivity.
Defined.

(** ** The debug flag *)

(** C3: the debug flag handed to [app.run] is true if and only if
    [FLASK_ENV] is set and is exactly ["development"]; for every other value
    and when it is unset the flag is false. *)
Theorem debug_iff_FLASK_ENV_development (w : world) (a : application) (n : Z) :
  create_app w = inr a ->
  PyInt.int (int_max_str_digits w) (port_setting w) = inr n ->
  exists d : bool,
    serve_calls (trace_of "__main__" w) = [RunCall a "0.0.0.0" n d]
    /\ (d = true <-> environ w !! "FLASK_ENV" = Some "development")
    /\ (d = false <-> environ w !! "FLASK_ENV" <> Some "development").
Proof.
  intros Hf Hp. exists (debug_setting w).
  unfold trace_of. rewrite (run_main_serves w a n Hf Hp). cbn.
  split; [reflexivity |].
  pose proof (debug_setting_true w) as Hd.
  split; [exact Hd |].
  destruct (debug_setting w); split; intros H.
  - discriminate.
  - exfalso. apply H, Hd. reflexivity.
  - intros Hs. apply Hd in Hs. discriminate.
  - reflexivity.
Qed.

Lemma debug_iff_FLASK_ENV_development_witness :
  exists d : bool,
    serve_calls (trace_of "__main__" (world_of env_8080_development)) =
      [RunCall the_app "0.0.0.0" 8080 d]
    /\ (d = true <->
        environ (world_of env_8080_development) !! "FLASK_ENV" = Some "development")
    /\ (d = false <->
        environ (world_of env_8080_development) !! "FLASK_ENV" <> Some "development").
Proof.
  apply (debug_iff_FLASK_ENV_development
           (world_of env_8080_development) the_app 8080);
    reflexivity.
Defined.

(** ** The port *)

(** C4: for every string [p] that [int] converts, running the launcher as
    the main program with [PORT=p] (and a factory that returns) calls
    [app.run] once, with port exactly [int (p)]. *)
Theorem PORT_is_bound_as_converted (w : world) (a : application)
  (p : string) (n : Z) :
  create_app w = inr a ->
  environ w !! "PORT" = Some p ->
  PyInt.int_of_str (int_max_str_digits w) p = Some n ->
  map call_port (serve_calls (trace_of "__main__" w)) = [n].
Proof.
  intros Hf Hp Hn.
  pose proof (int_port_setting_set w p Hp) as Hint. rewrite Hn in Hint.
  unfold trace_of. now rewrite (run_main_serves w a n Hf Hint).
Qed.

Lemma PORT_is_bound_as_converted_witness :
  PyInt.int_of_str (int_max_str_digits (world_of env_8080_development)) "8080" =
    Some 8080
  /\ map call_port
       (serve_calls (trace_of "__main__" (world_of env_8080_development))) =
     [8080].
Proof.
  split; [reflexivity |].
  apply (PORT_is_bound_as_converted
           (world_of env_8080_development) the_app "8080" 8080);
    reflexivity.
Defined.

(** C5: when [PORT] is unset, the resolved port is exactly 5000. *)
Theorem unset_PORT_resolves_to_5000 (w : world) (a : application) :
  create_app w = inr a ->
  environ w !! "PORT" = None ->
  PyInt.int (int_max_str_digits w) (port_setting w) = inr 5000
  /\ map call_port (serve_calls (trace_of "__main__" w)) = [5000].
Proof.
  intros Hf Hp.
  pose proof (int_port_setting_unset w Hp) as Hint.
  split; [exact Hint |].
  unfold trace_of. now rewrite (run_main_serves w a 5000 Hf Hint).
Qed.

Lemma unset_PORT_resolves_to_5000_witness :
  environ (world_of ∅) !! "PORT" = None
  /\ PyInt.int (int_max_str_digits (world_of ∅)) (port_setting (world_of ∅)) =
     inr 5000
  /\ map call_port (serve_calls (trace_of "__main__" (world_of ∅))) = [5000].
Proof.
  split; [reflexivity |].
  apply (unset_PORT_resolves_to_5000 (world_of ∅) the_app); reflexivity.
Defined.

(** ** The host *)

(** C6: in every world the host of the launcher's [app.run] calls is the
    constant ["0.0.0.0"], whatever the environment holds: the run as the main
    program makes one such call when startup reaches it (the factory returns
    and the port setting converts) and none otherwise. *)
Theorem host_is_all_interfaces (w : world) :
  map call_host (serve_calls (trace_of "__main__" w)) =
    match create_app w, PyInt.int (int_max_str_digits w) (port_setting w) with
    | inr _, inr _ => ["0.0.0.0"]
    | _, _ => []
    end.
Proof.
  unfold trace_of.
  destruct (create_app w) as [e | a] eqn:Hf.
  - now rewrite (run_factory_raises _ w e Hf).
  - destruct (PyInt.int (int_max_str_digits w) (port_setting w)) as [e | n] eqn:Hp.
    + now rewrite (run_main_rejected w a e Hf Hp).
    + now rewrite (run_main_serves w a n Hf Hp).
Qed.

(** ** Imported, not run *)

(** C7: when the module is imported, the application is built through the
    factory call and that is all: no environment variable is read and
    [app.run] is not called. *)
Theorem import_only_builds_application (name : string) (w : world) :
  name <> "__main__" ->
  trace_of name w = [EvCreateApp]
  /\ environ_reads (trace_of name w) = []
  /\ serve_calls (trace_of name w) = []
  /\ outcome_of name w =
       match create_app w with
       | inl e => inl e
       | inr _ => inr tt
       end.
Proof.
  intros Hn. unfold trace_of, outcome_of.
  destruct (create_app w) as [e | a] eqn:Hf.
  - now rewrite (run_factory_raises name w e Hf).
  - now rewrite (run_imported name w a Hn Hf).
Qed.

Lemma import_only_builds_application_witness :
  trace_of "run" (world_of env_8080_development) = [EvCreateApp]
  /\ environ_reads (trace_of "run" (world_of env_8080_development)) = []
  /\ serve_calls (trace_of "run" (world_of env_8080_development)) = []
  /\ outcome_of "run" (world_of env_8080_development) = inr tt.
Proof.
  apply (import_only_builds_application "run" (world_of env_8080_development)).
  discriminate.
Defined.

(** ** The two scenarios *)

(** C8: with [PORT=8080] and [FLASK_ENV=development] the run as the main
    program calls [app.run] on host ["0.0.0.0"], port 8080, debug enabled;
    in the empty environment it calls it on host ["0.0.0.0"], port 5000,
    debug disabled. *)
Theorem scenarios (lim : N) (a : application)
  (sv : application -> string -> Z -> bool -> option exception) :
  serve_calls
    (trace_of "__main__" (World env_8080_development lim (inr a) sv)) =
    [RunCall a "0.0.0.0" 8080 true]
  /\ serve_calls (trace_of "__main__" (World ∅ lim (inr a) sv)) =
    [RunCall a "0.0.0.0" 5000 false].
Proof.
  split.
  - unfold trace_of.
    now rewrite (run_main_serves (World env_8080_development lim (inr a) sv) a 8080).
  - unfold trace_of.
    now rewrite (run_main_serves (World ∅ lim (inr a) sv) a 5000).
Qed.

(** ** What the configuration depends on *)

Lemma port_setting_agrees (w1 w2 : world) :
  environ w1 !! "PORT" = environ w2 !! "PORT" ->
  port_setting w1 = port_setting w2.
Proof.
  intros H. unfold port_setting, dict_get. now rewrite H.
Qed.

Lemma debug_setting_agrees (w1 w2 : world) :
  environ w1 !! "FLASK_ENV" = environ w2 !! "FLASK_ENV" ->
  debug_setting w1 = debug_setting w2.
Proof.
  intros H. unfold debug_setting, dict_get. now rewrite H.
Qed.

(** The launcher reads no variable but [PORT] and [FLASK_ENV]. *)
Lemma environ_reads_of_run (name : string) (w : world) :
  Forall (fun k => k = "PORT" \/ k = "FLASK_ENV")
         (environ_reads (trace_of name w)).
Proof.
  unfold trace_of.
  destruct (create_app w) as [e | a] eqn:Hf.
  - rewrite (run_factory_raises name w e Hf). constructor.
  - destruct (String.eqb_spec name "__main__") as [-> | Hn].
    + destruct (PyInt.int (int_max_str_digits w) (port_setting w)) as [e | n] eqn:Hp.
      * rewrite (run_main_rejected w a e Hf Hp). cbn. repeat constructor.
      * rewrite (run_main_serves w a n Hf Hp). cbn.
        constructor; [now left |]. constructor; [now right | constructor].
    + rewrite (run_imported name w a Hn Hf). constructor.
Qed.

(** C9, as stated, fails: two runs started in environments that hold the
    same [PORT], a numeral of 4301 digits, and both leave [FLASK_ENV] unset,
    one of them with [PYTHONINTMAXSTRDIGITS=0]: the first stops at the
    conversion and calls [app.run] with nothing, the second calls it with
    the port. *)
Lemma PYTHONINTMAXSTRDIGITS_decides_the_port :
  env_PORT_4301_digits !! "PORT" = env_PORT_4301_digits_no_limit !! "PORT"
  /\ env_PORT_4301_digits !! "FLASK_ENV" =
     env_PORT_4301_digits_no_limit !! "FLASK_ENV"
  /\ started_world env_PORT_4301_digits (inr the_app) serve_forever =
     Some world_4301_digits
  /\ started_world env_PORT_4301_digits_no_limit (inr the_app) serve_forever =
     Some world_4301_digits_no_limit
  /\ map call_config (serve_calls (trace_of "__main__" world_4301_digits)) = []
  /\ map call_config
       (serve_calls (trace_of "__main__" world_4301_digits_no_limit)) =
     [("0.0.0.0", (10 ^ 4301 - 1) / 9, false)]
  /\ map call_config (serve_calls (trace_of "__main__" world_4301_digits)) <>
     map call_config
       (serve_calls (trace_of "__main__" world_4301_digits_no_limit)).
Proof.
  assert (H1 : map call_config
                 (serve_calls (trace_of "__main__" world_4301_digits)) = [])
    by (vm_compute; reflexivity).
  assert (H2 : map call_config
                 (serve_calls (trace_of "__main__" world_4301_digits_no_limit)) =
               [("0.0.0.0", (10 ^ 4301 - 1) / 9, false)])
    by (vm_compute; reflexivity).
  repeat split; try (vm_compute; reflexivity); try assumption.
  rewrite H1, H2. discriminate.
Qed.

(** C9, amended: two runs whose environments agree on [PORT] and on
    [FLASK_ENV] (each the same value, or each unset) and whose interpreters
    have the same digit limit of [int] in force (the setting start-up takes
    from [PYTHONINTMAXSTRDIGITS]) pass the same [(host, port, debug)] to
    [app.run] when their factories return, whatever applications those are
    and whatever else the environments hold; the launcher itself reads no
    variable but [PORT] and [FLASK_ENV]. *)
Theorem configuration_depends_on_PORT_FLASK_ENV_and_digit_limit
  (name : string) (w1 w2 : world) (a1 a2 : application) :
  environ w1 !! "PORT" = environ w2 !! "PORT" ->
  environ w1 !! "FLASK_ENV" = environ w2 !! "FLASK_ENV" ->
  int_max_str_digits w1 = int_max_str_digits w2 ->
  create_app w1 = inr a1 ->
  create_app w2 = inr a2 ->
  map call_config (serve_calls (trace_of name w1)) =
    map call_config (serve_calls (trace_of name w2))
  /\ Forall (fun k => k = "PORT" \/ k = "FLASK_ENV")
            (environ_reads (trace_of name w1))
  /\ Forall (fun k => k = "PORT" \/ k = "FLASK_ENV")
            (environ_reads (trace_of name w2)).
Proof.
  intros Hport Hflask Hlim Hf1 Hf2.
  split; [| split; apply environ_reads_of_run].
  unfold trace_of.
  destruct (String.eqb_spec name "__main__") as [-> | Hn].
  - pose proof (port_setting_agrees w1 w2 Hport) as Hps.
    pose proof (debug_setting_agrees w1 w2 Hflask) as Hds.
    destruct (PyInt.int (int_max_str_digits w1) (port_setting w1))
      as [e | n] eqn:Hp1.
    + rewrite (run_main_rejected w1 a1 e Hf1 Hp1).
      rewrite Hps, Hlim in Hp1.
      now rewrite (run_main_rejected w2 a2 e Hf2 Hp1).
    + rewrite (run_main_serves w1 a1 n Hf1 Hp1).
      rewrite Hps, Hlim in Hp1.
      rewrite (run_main_serves w2 a2 n Hf2 Hp1). cbn.
      unfold call_config. cbn. now rewrite Hds.
  - rewrite (run_imported name w1 a1 Hn Hf1).
    now rewrite (run_imported name w2 a2 Hn Hf2).
Qed.

Lemma configuration_depends_on_PORT_FLASK_ENV_and_digit_limit_witness :
  map call_config
    (serve_calls (trace_of "__main__" (world_of env_8080_development))) =
  map call_config
    (serve_calls
       (trace_of "__main__"
          (World env_8080_development_and_more PyInt.DEFAULT_MAX_STR_DIGITS
             (inr other_app) serve_forever)))
  /\ Forall (fun k => k = "PORT" \/ k = "FLASK_ENV")
            (environ_reads (trace_of "__main__" (world_of env_8080_development)))
  /\ Forall (fun k => k = "PORT" \/ k = "FLASK_ENV")
            (environ_reads
               (trace_of "__main__"
                  (World env_8080_development_and_more
                     PyInt.DEFAULT_MAX_STR_DIGITS
                     (inr other_app) serve_forever))).
Proof.
  apply (configuration_depends_on_PORT_FLASK_ENV_and_digit_limit "__main__"
           (world_of env_8080_development)
           (World env_8080_development_and_more PyInt.DEFAULT_MAX_STR_DIGITS
              (inr other_app) serve_forever)
           the_app other_app);
    reflexivity.
Defined.

(** ** No range check on the port *)

(** C10: the launcher checks no range: for every value [p] of [PORT], when
    [int] converts [p] the integer goes unchanged to [app.run], be it negative
    or above 65535, and when [int] rejects [p], and only then, the run stops
    with the conversion's [ValueError] before any call of [app.run]. *)
Theorem port_is_not_range_checked (w : world) (a : application) (p : string) :
  create_app w = inr a ->
  environ w !! "PORT" = Some p ->
  match PyInt.int_of_str (int_max_str_digits w) p with
  | Some n =>
      serve_calls (trace_of "__main__" w) =
        [RunCall a "0.0.0.0" n (debug_setting w)]
  | None =>
      serve_calls (trace_of "__main__" w) = []
      /\ outcome_of "__main__" w = inl (ValueError p)
  end.
Proof.
  intros Hf Hp.
  pose proof (int_port_setting_set w p Hp) as Hint.
  unfold trace_of, outcome_of.
  destruct (PyInt.int_of_str (int_max_str_digits w) p) as [n |].
  - now rewrite (run_main_serves w a n Hf Hint).
  - now rewrite (run_main_rejected w a _ Hf Hint).
Qed.

Lemma port_is_not_range_checked_witness :
  serve_calls (trace_of "__main__" (world_of env_PORT_minus_1)) =
    [RunCall the_app "0.0.0.0" (-1) false]
  /\ serve_calls (trace_of "__main__" (world_of env_PORT_70000)) =
    [RunCall the_app "0.0.0.0" 70000 false]
  /\ (serve_calls (trace_of "__main__" (world_of env_PORT_abc)) = []
      /\ outcome_of "__main__" (world_of env_PORT_abc) = inl (ValueError "abc")).
Proof.
  split; [| split].
  - apply (port_is_not_range_checked (world_of env_PORT_minus_1) the_app "-1");
      reflexivity.
  - apply (port_is_not_range_checked (world_of env_PORT_70000) the_app "70000");
      reflexivity.
  - apply (port_is_not_range_checked (world_of env_PORT_abc) the_app "abc");
      reflexivity.
Defined.

(** ** Further properties of the launcher *)

(** X1: whatever [__name__] is and whatever the world, a run of the module
    calls the factory exactly once, and that call is its first step. *)
Theorem factory_called_once_and_first (name : string) (w : world) :
  factory_calls (trace_of name w) = 1%nat
  /\ head (trace_of name w) = Some EvCreateApp.
Proof.
  unfold trace_of.
  destruct (create_app w) as [e | a] eqn:Hf.
  - now rewrite (run_factory_raises name w e Hf).
  - destruct (String.eqb_spec name "__main__") as [-> | Hn].
    + destruct (PyInt.int (int_max_str_digits w) (port_setting w)) as [e | n] eqn:Hp.
      * now rewrite (run_main_rejected w a e Hf Hp).
      * now rewrite (run_main_serves w a n Hf Hp).
    + now rewrite (run_imported name w a Hn Hf).
Qed.

(** X2: an exception of the factory leaves the module as it is, run or
    imported: no environment variable is read and [app.run] is not called. *)
Theorem factory_failure_aborts (name : string) (w : world) (e : exception) :
  create_app w = inl e ->
  outcome_of name w = inl e
  /\ environ_reads (trace_of name w) = []
  /\ serve_calls (trace_of name w) = [].
Proof.
  intros Hf. unfold outcome_of, trace_of.
  now rewrite (run_factory_raises name w e Hf).
Qed.

Lemma factory_failure_aborts_witness :
  outcome_of "__main__" world_factory_raises = inl (OtherError "RuntimeError")
  /\ environ_reads (trace_of "__main__" world_factory_raises) = []
  /\ serve_calls (trace_of "__main__" world_factory_raises) = [].
Proof.
  apply (factory_failure_aborts "__main__" world_factory_raises
           (OtherError "RuntimeError")).
  reflexivity.
Defined.

(** X3: the launcher raises nothing of its own.  An exception that leaves a
    run as the main program is the factory's, or the [ValueError] of [int]
    on the value of [PORT], or the one [app.run] raised. *)
Theorem failure_origins (w : world) (e : exception) :
  outcome_of "__main__" w = inl e ->
  create_app w = inl e
  \/ (exists p, environ w !! "PORT" = Some p
                /\ PyInt.int_of_str (int_max_str_digits w) p = None
                /\ e = ValueError p)
  \/ (exists a n, create_app w = inr a
                  /\ PyInt.int (int_max_str_digits w) (port_setting w) = inr n
                  /\ serve w a "0.0.0.0" n (debug_setting w) = Some e).
Proof.
  unfold outcome_of. intros Hout.
  destruct (create_app w) as [e' | a] eqn:Hf.
  - rewrite (run_factory_raises _ w e' Hf) in Hout. cbn in Hout.
    left. congruence.
  - right.
    destruct (environ w !! "PORT") as [p |] eqn:Hport.
    + pose proof (int_port_setting_set w p Hport) as Hint.
      destruct (PyInt.int_of_str (int_max_str_digits w) p) as [n |] eqn:Hconv.
      * right. exists a, n.
        rewrite (run_main_serves w a n Hf Hint) in Hout. cbn in Hout.
        split; [reflexivity | split; [exact Hint |]].
        destruct (serve w a "0.0.0.0" n (debug_setting w)); congruence.
      * left. exists p.
        rewrite (run_main_rejected w a _ Hf Hint) in Hout. cbn in Hout.
        split; [reflexivity | split; [exact Hconv | congruence]].
    + pose proof (int_port_setting_unset w Hport) as Hint.
      right. exists a, 5000.
      rewrite (run_main_serves w a 5000 Hf Hint) in Hout. cbn in Hout.
      split; [reflexivity | split; [exact Hint |]].
      destruct (serve w a "0.0.0.0" 5000 (debug_setting w)); congruence.
Qed.

Lemma failure_origins_witness :
  outcome_of "__main__" (world_of env_PORT_abc) = inl (ValueError "abc")
  /\ (create_app (world_of env_PORT_abc) = inl (ValueError "abc")
      \/ (exists p, environ (world_of env_PORT_abc) !! "PORT" = Some p
                    /\ PyInt.int_of_str
                         (int_max_str_digits (world_of env_PORT_abc)) p = None
                    /\ ValueError "abc" = ValueError p)
      \/ (exists a n, create_app (world_of env_PORT_abc) = inr a
                      /\ PyInt.int (int_max_str_digits (world_of env_PORT_abc))
                           (port_setting (world_of env_PORT_abc)) = inr n
                      /\ serve (world_of env_PORT_abc) a "0.0.0.0" n
                           (debug_setting (world_of env_PORT_abc)) =
                         Some (ValueError "abc"))).
Proof.
  split; [reflexivity |].
  apply (failure_origins (world_of env_PORT_abc) (ValueError "abc")).
  reflexivity.
Defined.

(** X4: the reads of the environment in a run as the main program: none when
    the factory raises, [PORT] alone when [int] rejects the port setting (the
    run stops before [FLASK_ENV] is looked at), and otherwise [PORT] then
    [FLASK_ENV], each read once. *)
Theorem environment_reads_of_main (w : world) :
  environ_reads (trace_of "__main__" w) =
    match create_app w, PyInt.int (int_max_str_digits w) (port_setting w) with
    | inl _, _ => []
    | inr _, inl _ => ["PORT"]
    | inr _, inr _ => ["PORT"; "FLASK_ENV"]
    end.
Proof.
  unfold trace_of.
  destruct (create_app w) as [e | a] eqn:Hf.
  - now rewrite (run_factory_raises _ w e Hf).
  - destruct (PyInt.int (int_max_str_digits w) (port_setting w)) as [e | n] eqn:Hp.
    + now rewrite (run_main_rejected w a e Hf Hp).
    + now rewrite (run_main_serves w a n Hf Hp).
Qed.

(** ** The conversion [int] on the value of [PORT] *)

Lemma isspace_below_127 (c : ascii) :
  PyInt.Py_ISSPACE c = true -> (PyInt.code c <? 127)%N = true.
Proof. by_cases_on_char c. Qed.

Lemma isspace_is_ascii (c : ascii) :
  PyInt.Py_ISSPACE c = true -> (PyInt.code c <? 128)%N = true.
Proof. by_cases_on_char c. Qed.

Lemma isspace_not_underscore (c : ascii) :
  PyInt.Py_ISSPACE c = true -> Ascii.eqb c "_" = false.
Proof. by_cases_on_char c. Qed.

Lemma isspace_not_digit (c : ascii) :
  PyInt.Py_ISSPACE c = true -> PyInt.Py_UNICODE_TODECIMAL c = None.
Proof. by_cases_on_char c. Qed.

Lemma isspace_not_sign (c : ascii) :
  PyInt.Py_ISSPACE c = true -> Ascii.eqb c "+" = false /\ Ascii.eqb c "-" = false.
Proof. by_cases_on_char c; intros _; split; reflexivity. Qed.

Lemma blank_cons (c : ascii) (s : string) :
  blank (String c s) = true -> PyInt.Py_ISSPACE c = true /\ blank s = true.
Proof. unfold blank. cbn. apply andb_prop. Qed.

Lemma blank_is_ascii (s : string) :
  blank s = true -> PyInt.PyUnicode_IS_ASCII s = true.
Proof.
  induction s as [| c s IH]; [reflexivity |].
  intros [Hc Hs]%blank_cons. cbn.
  now rewrite (isspace_is_ascii c Hc), IH.
Qed.

Lemma skip_space_blank (s : string) :
  blank s = true -> PyInt.skip_space s = "".
Proof.
  induction s as [| c s IH]; [reflexivity |].
  intros [Hc Hs]%blank_cons. cbn. rewrite Hc. now apply IH.
Qed.

Lemma skip_space_empty_blank (s : string) :
  PyInt.skip_space s = "" -> blank s = true.
Proof.
  induction s as [| c s IH]; [reflexivity |].
  cbn. unfold blank. cbn.
  destruct (PyInt.Py_ISSPACE c); [exact IH | discriminate].
Qed.

Lemma append_cons (c : ascii) (s t : string) :
  String c s ++ t = String c (s ++ t).
Proof. reflexivity. Qed.

Lemma append_empty_l (t : string) : "" ++ t = t.
Proof. reflexivity. Qed.

(** White space in front is skipped. *)
Lemma skip_space_app_blank (pre t : string) :
  blank pre = true -> PyInt.skip_space (pre ++ t) = PyInt.skip_space t.
Proof.
  induction pre as [| c pre IH]; [reflexivity |].
  intros [Hc Hs]%blank_cons. rewrite ?append_cons, ?append_empty_l; cbn [PyInt.skip_space].
  rewrite Hc. now apply IH.
Qed.

(** White space appended: what is left after skipping is either nothing, or
    what was left before followed by the appended white space. *)
Lemma skip_space_app_r (t post : string) :
  blank post = true ->
  PyInt.skip_space (t ++ post) =
    match PyInt.skip_space t with
    | EmptyString => EmptyString
    | String c r => String c (r ++ post)
    end.
Proof.
  intros Hpost. induction t as [| c t IH].
  - rewrite append_empty_l, (skip_space_blank post Hpost). reflexivity.
  - rewrite ?append_cons, ?append_empty_l; cbn [PyInt.skip_space].
    destruct (PyInt.Py_ISSPACE c); [exact IH | reflexivity].
Qed.

(** The scan stops at appended white space as it stops at the end. *)
Lemma scan_digits_app_blank (u post : string) (prev : bool) (k : N) (acc : Z) :
  blank post = true ->
  PyInt.scan_digits (u ++ post) prev k acc =
    match PyInt.scan_digits u prev k acc with
    | None => None
    | Some (d, v, rest) => Some (d, v, rest ++ post)
    end.
Proof.
  intros Hpost. revert prev k acc.
  induction u as [| c u IH]; intros prev k acc.
  - rewrite append_empty_l. destruct post as [| c r]; [now destruct prev |].
    apply blank_cons in Hpost as [Hc _]. cbn [PyInt.scan_digits].
    rewrite (isspace_not_underscore c Hc), (isspace_not_digit c Hc).
    now destruct prev.
  - rewrite ?append_cons, ?append_empty_l; cbn [PyInt.scan_digits]. destruct (Ascii.eqb c "_").
    + destruct prev; [reflexivity | apply IH].
    + destruct (PyInt.Py_UNICODE_TODECIMAL c); [apply IH |].
      destruct prev; reflexivity.
Qed.


Lemma PyLong_FromString_app_l (lim : N) (pre t : string) :
  blank pre = true ->
  PyInt.PyLong_FromString lim (pre ++ t) = PyInt.PyLong_FromString lim t.
Proof.
  intros Hpre. unfold PyInt.PyLong_FromString.
  now rewrite (skip_space_app_blank pre t Hpre).
Qed.

(** The part of [PyLong_FromString] after the sign, on text followed by
    white space. *)
Lemma digits_part_app_blank (lim : N) (u post : string) (negative : bool) :
  blank post = true ->
  match u ++ post with
  | String c _ => if Ascii.eqb c "_" then None else
      match PyInt.scan_digits (u ++ post) false 0%N 0 with
      | None => None
      | Some (digits, v, rest) =>
          if (digits =? 0)%N then None
          else if PyInt.exceeds_max_str_digits lim digits then None
          else match PyInt.skip_space rest with
               | EmptyString => Some (if negative then - v else v)
               | String _ _ => None
               end
      end
  | EmptyString => None
  end =
  match u with
  | String c _ => if Ascii.eqb c "_" then None else
      match PyInt.scan_digits u false 0%N 0 with
      | None => None
      | Some (digits, v, rest) =>
          if (digits =? 0)%N then None
          else if PyInt.exceeds_max_str_digits lim digits then None
          else match PyInt.skip_space rest with
               | EmptyString => Some (if negative then - v else v)
               | String _ _ => None
               end
      end
  | EmptyString => None
  end.
Proof.
  intros Hpost.
  rewrite (scan_digits_app_blank u post false 0%N 0 Hpost).
  destruct u as [| c u].
  - rewrite append_empty_l. destruct post as [| c r]; [reflexivity |].
    apply blank_cons in Hpost as [Hc _].
    now rewrite (isspace_not_underscore c Hc).
  - rewrite append_cons. destruct (Ascii.eqb c "_"); [reflexivity |].
    destruct (PyInt.scan_digits (String c u) false 0%N 0)
      as [[[d v] rest] |]; [| reflexivity].
    destruct (d =? 0)%N; [reflexivity |].
    destruct (PyInt.exceeds_max_str_digits lim d); [reflexivity |].
    rewrite (skip_space_app_r rest post Hpost).
    now destruct (PyInt.skip_space rest).
Qed.

Lemma PyLong_FromString_app_r (lim : N) (t post : string) :
  blank post = true ->
  PyInt.PyLong_FromString lim (t ++ post) = PyInt.PyLong_FromString lim t.
Proof.
  intros Hpost. unfold PyInt.PyLong_FromString.
  rewrite (skip_space_app_r t post Hpost).
  destruct (PyInt.skip_space t) as [| c r]; [reflexivity |].
  destruct (Ascii.eqb c "+").
  { apply (digits_part_app_blank lim r post false Hpost). }
  destruct (Ascii.eqb c "-").
  { apply (digits_part_app_blank lim r post true Hpost). }
  rewrite <- append_cons.
  apply (digits_part_app_blank lim (String c r) post false Hpost).
Qed.

Lemma IS_ASCII_app (s t : string) :
  PyInt.PyUnicode_IS_ASCII (s ++ t) =
    PyInt.PyUnicode_IS_ASCII s && PyInt.PyUnicode_IS_ASCII t.
Proof.
  induction s as [| c s IH]; [reflexivity |].
  rewrite append_cons. cbn [PyInt.PyUnicode_IS_ASCII].
  now rewrite IH, andb_assoc.
Qed.

Lemma transform_loop_blank_l (pre t : string) :
  blank pre = true ->
  PyInt.transform_loop (pre ++ t) = pre ++ PyInt.transform_loop t.
Proof.
  induction pre as [| c pre IH]; [reflexivity |].
  intros [Hc Hs]%blank_cons.
  rewrite !append_cons. cbn [PyInt.transform_loop].
  now rewrite (isspace_below_127 c Hc), IH.
Qed.

Lemma transform_loop_blank (s : string) :
  blank s = true -> PyInt.transform_loop s = s.
Proof.
  induction s as [| c s IH]; [reflexivity |].
  intros [Hc Hs]%blank_cons. cbn [PyInt.transform_loop].
  now rewrite (isspace_below_127 c Hc), IH.
Qed.

(** White space appended to a text either follows its transform or is cut
    off with it at the first character that is no digit and no space. *)
Lemma transform_loop_blank_r (s post : string) :
  blank post = true ->
  PyInt.transform_loop (s ++ post) = PyInt.transform_loop s ++ post
  \/ PyInt.transform_loop (s ++ post) = PyInt.transform_loop s.
Proof.
  intros Hpost. induction s as [| c s IH].
  - left. cbn [PyInt.transform_loop]. rewrite !append_empty_l.
    apply (transform_loop_blank post Hpost).
  - rewrite append_cons. cbn [PyInt.transform_loop].
    destruct (PyInt.code c <? 127)%N.
    { destruct IH as [-> | ->]; [left | right]; reflexivity. }
    destruct (PyInt.Py_UNICODE_ISSPACE c).
    { destruct IH as [-> | ->]; [left | right]; reflexivity. }
    destruct (PyInt.Py_UNICODE_TODECIMAL c).
    { destruct IH as [-> | ->]; [left | right]; reflexivity. }
    right. reflexivity.
Qed.

(** X5: white space (blank, tab, line feed, vertical tab, form feed, carriage
    return) before and after the text does not change what [int] makes of
    it, under any digit limit: the same integer, or the same rejection. *)
Theorem int_ignores_surrounding_space (lim : N) (pre s post : string) :
  blank pre = true ->
  blank post = true ->
  PyInt.int_of_str lim (pre ++ s ++ post) = PyInt.int_of_str lim s.
Proof.
  intros Hpre Hpost. unfold PyInt.int_of_str, PyInt.TransformDecimalAndSpaceToASCII.
  rewrite !IS_ASCII_app, (blank_is_ascii pre Hpre), (blank_is_ascii post Hpost).
  rewrite andb_true_l, andb_true_r.
  destruct (PyInt.PyUnicode_IS_ASCII s).
  - now rewrite (PyLong_FromString_app_l lim pre _ Hpre),
      (PyLong_FromString_app_r lim s post Hpost).
  - rewrite (transform_loop_blank_l pre _ Hpre),
      (PyLong_FromString_app_l lim pre _ Hpre).
    destruct (transform_loop_blank_r s post Hpost) as [-> | ->];
      [apply (PyLong_FromString_app_r lim _ post Hpost) | reflexivity].
Qed.

Lemma int_ignores_surrounding_space_witness :
  blank " " = true
  /\ blank (String "009" (String "010" "")) = true
  /\ PyInt.int_of_str PyInt.DEFAULT_MAX_STR_DIGITS
       (" " ++ "8080" ++ String "009" (String "010" "")) =
     PyInt.int_of_str PyInt.DEFAULT_MAX_STR_DIGITS "8080".
Proof.
  split; [reflexivity |]. split; [reflexivity |].
  apply (int_ignores_surrounding_space PyInt.DEFAULT_MAX_STR_DIGITS " " "8080"
           (String "009" (String "010" ""))); reflexivity.
Defined.




(** *** From a numeral to the port *)

Lemma string_of_uint_is_ascii (d : Decimal.uint) :
  PyInt.PyUnicode_IS_ASCII (NilEmpty.string_of_uint d) = true.
Proof.
  induction d; cbn [NilEmpty.string_of_uint PyInt.PyUnicode_IS_ASCII];
    [reflexivity | ..]; rewrite IHd; reflexivity.
Qed.

Lemma string_of_uint_length (d : Decimal.uint) :
  N.of_nat (String.length (NilEmpty.string_of_uint d)) = Unsigned.usize d.
Proof.
  induction d; cbn [NilEmpty.string_of_uint String.length Unsigned.usize];
    [reflexivity | ..]; rewrite Nat2N.inj_succ, IHd; reflexivity.
Qed.

(** The value of a numeral with one more leading digit. *)
Lemma of_uint_leading (d : Decimal.uint) :
  Pos.of_uint (Decimal.D0 d) = Pos.of_uint d
  /\ Pos.of_uint (Decimal.D1 d) = (1 * 10 ^ Unsigned.usize d + Pos.of_uint d)%N
  /\ Pos.of_uint (Decimal.D2 d) = (2 * 10 ^ Unsigned.usize d + Pos.of_uint d)%N
  /\ Pos.of_uint (Decimal.D3 d) = (3 * 10 ^ Unsigned.usize d + Pos.of_uint d)%N
  /\ Pos.of_uint (Decimal.D4 d) = (4 * 10 ^ Unsigned.usize d + Pos.of_uint d)%N
  /\ Pos.of_uint (Decimal.D5 d) = (5 * 10 ^ Unsigned.usize d + Pos.of_uint d)%N
  /\ Pos.of_uint (Decimal.D6 d) = (6 * 10 ^ Unsigned.usize d + Pos.of_uint d)%N
  /\ Pos.of_uint (Decimal.D7 d) = (7 * 10 ^ Unsigned.usize d + Pos.of_uint d)%N
  /\ Pos.of_uint (Decimal.D8 d) = (8 * 10 ^ Unsigned.usize d + Pos.of_uint d)%N
  /\ Pos.of_uint (Decimal.D9 d) = (9 * 10 ^ Unsigned.usize d + Pos.of_uint d)%N.
Proof.
  repeat split; try reflexivity;
    rewrite (Unsigned.of_uint_alt (_ d)), (Unsigned.of_uint_alt d);
    unfold Decimal.rev; cbn [Decimal.revapp];
    rewrite Unsigned.of_lu_revapp; cbn [Unsigned.of_lu];
    unfold Decimal.rev; lia.
Qed.

(** The scan reads a numeral to its end: it counts its digits and extends
    the value read so far by them. *)
Lemma scan_digits_numeral (d : Decimal.uint) (k : N) (acc : Z) :
  PyInt.scan_digits (NilEmpty.string_of_uint d) false k acc =
    Some ((k + Unsigned.usize d)%N,
          acc * 10 ^ Z.of_N (Unsigned.usize d) + Z.of_N (Pos.of_uint d),
          "").
Proof.
  revert k acc.
  induction d; intros k acc;
    [ cbn; rewrite N.add_0_r; apply f_equal; repeat apply (f_equal2 pair);
      solve [reflexivity | lia] | .. ];
    cbn [NilEmpty.string_of_uint PyInt.scan_digits];
    match goal with
    | |- context [Ascii.eqb ?c "_"] => change (Ascii.eqb c "_") with false
    end;
    cbv iota;
    match goal with
    | |- context [PyInt.Py_UNICODE_TODECIMAL ?c] =>
        let v := eval vm_compute in (PyInt.Py_UNICODE_TODECIMAL c) in
        change (PyInt.Py_UNICODE_TODECIMAL c) with v
    end;
    cbv iota; rewrite IHd;
    pose proof (of_uint_leading d) as
      (H0 & H1 & H2 & H3 & H4 & H5 & H6 & H7 & H8 & H9);
    cbn [Unsigned.usize];
    rewrite ?H0, ?H1, ?H2, ?H3, ?H4, ?H5, ?H6, ?H7, ?H8, ?H9;
    rewrite N2Z.inj_succ, Z.pow_succ_r by lia;
    rewrite ?N2Z.inj_add, ?N2Z.inj_mul, ?N2Z.inj_pow;
    apply f_equal; repeat apply (f_equal2 pair);
    solve [reflexivity | lia | cbn [Z.of_N]; ring].
Qed.

(** A numeral starts with a digit. *)
Lemma string_of_uint_head (d : Decimal.uint) :
  d <> Decimal.Nil ->
  exists c r, NilEmpty.string_of_uint d = String c r
              /\ PyInt.Py_ISSPACE c = false
              /\ Ascii.eqb c "+" = false
              /\ Ascii.eqb c "-" = false
              /\ Ascii.eqb c "_" = false.
Proof.
  destruct d; [contradiction | ..]; intros _;
    eexists; eexists; (split; [reflexivity |]); repeat split; reflexivity.
Qed.

Lemma PyLong_FromString_numeral (lim : N) (d : Decimal.uint) :
  d <> Decimal.Nil ->
  PyInt.exceeds_max_str_digits lim (Unsigned.usize d) = false ->
  PyInt.PyLong_FromString lim (NilEmpty.string_of_uint d) =
    Some (Z.of_N (Pos.of_uint d))
  /\ PyInt.PyLong_FromString lim (String "-" (NilEmpty.string_of_uint d)) =
    Some (- Z.of_N (Pos.of_uint d)).
Proof.
  intros Hd Hlen.
  destruct (string_of_uint_head d Hd) as (c & r & Hs & Hsp & Hpl & Hmi & Hun).
  pose proof (scan_digits_numeral d 0%N 0) as Hscan.
  assert (Hnz : (0 + Unsigned.usize d =? 0)%N = false).
  { apply N.eqb_neq. destruct d; [contradiction | ..]; cbn [Unsigned.usize]; lia. }
  assert (Hmax : PyInt.exceeds_max_str_digits lim (0 + Unsigned.usize d) = false).
  { now rewrite N.add_0_l. }
  rewrite Hs in Hscan.
  split; unfold PyInt.PyLong_FromString.
  - rewrite Hs. cbn [PyInt.skip_space]. rewrite Hsp, Hpl, Hmi, Hun, Hscan.
    rewrite Hnz, Hmax. cbn [PyInt.skip_space]. f_equal; lia.
  - cbn [PyInt.skip_space].
    change (PyInt.Py_ISSPACE "-") with false. cbv iota.
    change (Ascii.eqb "-" "+") with false.
    change (Ascii.eqb "-" "-") with true. cbv iota.
    rewrite Hs, Hun, Hscan, Hnz, Hmax. cbn [PyInt.skip_space]. f_equal; lia.
Qed.

(** The limit is exceeded by more digits if by fewer. *)
Lemma exceeds_max_str_digits_succ (lim d : N) :
  PyInt.exceeds_max_str_digits lim (N.succ d) = false ->
  PyInt.exceeds_max_str_digits lim d = false.
Proof.
  unfold PyInt.exceeds_max_str_digits, PyInt.MAX_STR_DIGITS_THRESHOLD.
  rewrite !andb_false_iff, !N.ltb_ge. lia.
Qed.

(** [int (str (n)) = n] for a numeral within the digit limit. *)
Lemma int_of_str_decimal_numeral (lim : N) (n : Z) :
  PyInt.exceeds_max_str_digits lim
    (N.of_nat (String.length (decimal_numeral n))) = false ->
  PyInt.int_of_str lim (decimal_numeral n) = Some n.
Proof.
  intros Hlen. destruct n as [| p | p]; [reflexivity | |];
    unfold decimal_numeral, Z.to_int, NilEmpty.string_of_int in *;
    unfold PyInt.int_of_str, PyInt.TransformDecimalAndSpaceToASCII;
    cbn [PyInt.PyUnicode_IS_ASCII String.length] in *;
    try change (PyInt.code "-" <? 128)%N with true;
    rewrite ?andb_true_l, string_of_uint_is_ascii;
    pose proof (string_of_uint_length (Pos.to_uint p)) as Hl;
    rewrite ?Nat2N.inj_succ, Hl in Hlen;
    assert (Hu : PyInt.exceeds_max_str_digits lim
                   (Unsigned.usize (Pos.to_uint p)) = false)
      by (first [exact Hlen | exact (exceeds_max_str_digits_succ _ _ Hlen)]);
    destruct (PyLong_FromString_numeral lim (Pos.to_uint p)
                (Unsigned.to_uint_nonnil p) Hu) as [Hpos Hneg];
    rewrite Unsigned.of_to in Hpos, Hneg; assumption.
Qed.

(** X7: from a number to the port: when [PORT] holds the decimal numeral of
    an integer [n], as [str (n)] writes it and within the digit limit in
    force (4300 characters by default), the run as the main program passes
    exactly [n] to [app.run]. *)
Theorem decimal_PORT_round_trip (w : world) (a : application) (n : Z) :
  create_app w = inr a ->
  environ w !! "PORT" = Some (decimal_numeral n) ->
  PyInt.exceeds_max_str_digits (int_max_str_digits w)
    (N.of_nat (String.length (decimal_numeral n))) = false ->
  serve_calls (trace_of "__main__" w) =
    [RunCall a "0.0.0.0" n (debug_setting w)].
Proof.
  intros Hf Hp Hlen.
  pose proof (int_port_setting_set w _ Hp) as Hint.
  rewrite (int_of_str_decimal_numeral _ n Hlen) in Hint.
  unfold trace_of. now rewrite (run_main_serves w a n Hf Hint).
Qed.

Lemma decimal_PORT_round_trip_witness :
  environ (world_of env_PORT_minus_1) !! "PORT" = Some (decimal_numeral (-1))
  /\ serve_calls (trace_of "__main__" (world_of env_PORT_minus_1)) =
     [RunCall the_app "0.0.0.0" (-1) (debug_setting (world_of env_PORT_minus_1))].
Proof.
  split; [reflexivity |].
  apply (decimal_PORT_round_trip (world_of env_PORT_minus_1) the_app (-1));
    reflexivity.
Defined.

(** *** What a converted text is made of *)

(** The characters of ASCII text that [PyLong_FromString] converts. *)
Lemma string_forallb_impl (P Q : ascii -> bool) (s : string) :
  (forall c, P c = true -> Q c = true) ->
  string_forallb P s = true -> string_forallb Q s = true.
Proof.
  intros HPQ. induction s as [| c s IH]; [reflexivity |].
  cbn [string_forallb]. intros [Hc Hs]%andb_prop.
  now rewrite (HPQ c Hc), (IH Hs).
Qed.

Lemma forallb_skip_space (P : ascii -> bool) (t : string) :
  (forall c, PyInt.Py_ISSPACE c = true -> P c = true) ->
  string_forallb P (PyInt.skip_space t) = true ->
  string_forallb P t = true.
Proof.
  intros Hsp. induction t as [| c t IH]; [reflexivity |].
  cbn [PyInt.skip_space].
  destruct (PyInt.Py_ISSPACE c) eqn:Hc; [| trivial].
  intros H. cbn [string_forallb]. now rewrite (Hsp c Hc), (IH H).
Qed.

Lemma forallb_scan_digits (P : ascii -> bool) (u : string) :
  P "_"%char = true ->
  (forall c d, PyInt.Py_UNICODE_TODECIMAL c = Some d -> P c = true) ->
  forall prev k acc d v rest,
    PyInt.scan_digits u prev k acc = Some (d, v, rest) ->
    string_forallb P rest = true ->
    string_forallb P u = true.
Proof.
  intros Hun Hdig.
  induction u as [| c u IH]; intros prev k acc d v rest Hscan Hrest.
  - reflexivity.
  - cbn [PyInt.scan_digits] in Hscan. cbn [string_forallb].
    destruct (Ascii.eqb_spec c "_") as [-> | _].
    + destruct prev; [discriminate |].
      rewrite Hun. apply (IH _ _ _ _ _ _ Hscan Hrest).
    + destruct (PyInt.Py_UNICODE_TODECIMAL c) as [i |] eqn:Hc.
      * rewrite (Hdig c i Hc). apply (IH _ _ _ _ _ _ Hscan Hrest).
      * destruct prev; [discriminate |].
        injection Hscan as _ _ <-. exact Hrest.
Qed.

Lemma PyLong_FromString_chars (lim : N) (t : string) (n : Z) :
  PyInt.PyLong_FromString lim t = Some n ->
  string_forallb ascii_numeral_char t = true.
Proof.
  unfold PyInt.PyLong_FromString. intros H.
  apply forallb_skip_space.
  { intros c Hc. unfold ascii_numeral_char. now rewrite Hc. }
  assert (Hbody : forall (u : string) (negative : bool),
    match u with
    | String c _ => if Ascii.eqb c "_" then None else
        match PyInt.scan_digits u false 0%N 0 with
        | None => None
        | Some (digits, v, rest) =>
            if (digits =? 0)%N then None
            else if PyInt.exceeds_max_str_digits lim digits then None
            else match PyInt.skip_space rest with
                 | EmptyString => Some (if negative then - v else v)
                 | String _ _ => None
                 end
        end
    | EmptyString => None
    end = Some n ->
    string_forallb ascii_numeral_char u = true).
  { intros u negative Hu.
    destruct u as [| c u]; [discriminate |].
    destruct (Ascii.eqb c "_"); [discriminate |].
    destruct (PyInt.scan_digits (String c u) false 0%N 0)
      as [[[d v] rest] |] eqn:Hscan; [| discriminate].
    destruct (d =? 0)%N; [discriminate |].
    destruct (PyInt.exceeds_max_str_digits lim d); [discriminate |].
    destruct (PyInt.skip_space rest) eqn:Hrest; [| discriminate].
    assert (Hdig : forall c' i, PyInt.Py_UNICODE_TODECIMAL c' = Some i ->
                               ascii_numeral_char c' = true).
    { intros c' i Hc'. unfold ascii_numeral_char. rewrite Hc'.
      now rewrite orb_true_r. }
    apply (forallb_scan_digits ascii_numeral_char (String c u)
             eq_refl Hdig false 0%N 0 d v rest Hscan).
    apply (string_forallb_impl PyInt.Py_ISSPACE).
    - intros c' Hc'. unfold ascii_numeral_char. now rewrite Hc'.
    - apply (skip_space_empty_blank rest Hrest). }
  destruct (PyInt.skip_space t) as [| c r]; [discriminate |].
  destruct (Ascii.eqb_spec c "+") as [-> | _].
  { cbn [string_forallb]. apply (Hbody r false H). }
  destruct (Ascii.eqb_spec c "-") as [-> | _].
  { cbn [string_forallb]. apply (Hbody r true H). }
  apply (Hbody (String c r) false H).
Qed.

Lemma ascii_numeral_char_numeral_char (c : ascii) :
  ascii_numeral_char c = true -> numeral_char c = true.
Proof. by_cases_on_char c. Qed.

(** Where the transform leaves only characters of a numeral, the text it was
    given had only such characters, next-line and no-break space included. *)
Lemma transform_loop_chars (s : string) :
  string_forallb ascii_numeral_char (PyInt.transform_loop s) = true ->
  string_forallb numeral_char s = true.
Proof.
  induction s as [| c s IH]; [reflexivity |].
  cbn [PyInt.transform_loop string_forallb].
  destruct (PyInt.code c <? 127)%N eqn:Hlow.
  { cbn [string_forallb]. intros [Hc Hs]%andb_prop.
    now rewrite (ascii_numeral_char_numeral_char c Hc), (IH Hs). }
  destruct (PyInt.Py_UNICODE_ISSPACE c) eqn:Hsp.
  { cbn [string_forallb]. intros [_ Hs]%andb_prop.
    rewrite (IH Hs), andb_true_r.
    revert Hlow Hsp. by_cases_on_char c. }
  destruct (PyInt.Py_UNICODE_TODECIMAL c) eqn:Hdec.
  { exfalso. revert Hlow Hdec. by_cases_on_char c. }
  cbn [string_forallb]. discriminate.
Qed.

(** X8: of the strs whose code points are all below 256, [int] converts,
    under any digit limit, none with a character other than white space
    (ASCII white space, next line, no-break space), an ASCII digit, a sign
    or an underscore: such a [PORT] holding a letter, a point, a colon, a
    slash or any other character is rejected as a whole, never read in
    part. *)
Theorem int_converts_numeral_characters_only (lim : N) (s : string) (n : Z) :
  PyInt.int_of_str lim s = Some n ->
  string_forallb numeral_char s = true.
Proof.
  unfold PyInt.int_of_str, PyInt.TransformDecimalAndSpaceToASCII.
  intros H. apply PyLong_FromString_chars in H.
  destruct (PyInt.PyUnicode_IS_ASCII s).
  - revert H. apply string_forallb_impl, ascii_numeral_char_numeral_char.
  - now apply transform_loop_chars.
Qed.

Lemma int_converts_numeral_characters_only_witness :
  PyInt.int_of_str PyInt.DEFAULT_MAX_STR_DIGITS " -1_000 " = Some (-1000)
  /\ string_forallb numeral_char " -1_000 " = true.
Proof.
  split; [reflexivity |].
  apply (int_converts_numeral_characters_only
           PyInt.DEFAULT_MAX_STR_DIGITS " -1_000 " (-1000)).
  reflexivity.
Defined.

(** ** When a run ends well *)

(** X9: a run as the main program ends without an exception exactly when the
    factory returned, [int] converted the port setting and the call of
    [app.run] on ["0.0.0.0"] with that port returned; the launcher neither
    catches an exception nor adds one. *)
Theorem main_completes_iff (w : world) :
  outcome_of "__main__" w = inr tt <->
  exists a n, create_app w = inr a
              /\ PyInt.int (int_max_str_digits w) (port_setting w) = inr n
              /\ serve w a "0.0.0.0" n (debug_setting w) = None.
Proof.
  unfold outcome_of. split.
  - intros Hout.
    destruct (create_app w) as [e | a] eqn:Hf.
    { rewrite (run_factory_raises _ w e Hf) in Hout. discriminate. }
    destruct (PyInt.int (int_max_str_digits w) (port_setting w)) as [e | n] eqn:Hp.
    { rewrite (run_main_rejected w a e Hf Hp) in Hout. discriminate. }
    rewrite (run_main_serves w a n Hf Hp) in Hout. cbn in Hout.
    exists a, n. split; [reflexivity | split; [reflexivity |]].
    destruct (serve w a "0.0.0.0" n (debug_setting w)); [discriminate | reflexivity].
  - intros (a & n & Hf & Hp & Hs).
    rewrite (run_main_serves w a n Hf Hp). cbn. now rewrite Hs.
Qed.

Lemma main_completes_iff_witness :
  outcome_of "__main__" (world_of env_8080_development) = inr tt.
Proof.
  apply (proj2 (main_completes_iff (world_of env_8080_development))).
  exists the_app, 8080. repeat split; reflexivity.
Defined.
